(** * Zutto core: items, users and two-party trade offers

    Shallow embedding of [src/core.py].  Python's frozen dataclasses become
    Rocq records (structural, value equality), [frozenset[Item]] becomes
    stdpp's [gset Item], and the [OfferStatus] enum an inductive type.
    [dataclasses.replace] is record reconstruction with the other fields
    copied. *)

From stdpp Require Import base gmap sets strings countable.

(** ** Data model *)

(** [@dataclass(frozen=True) class Item: name: str; description: str = ""] *)
Record Item := mkItem {
  name : string;
  description : string
}.

(** The default value of [description]. *)
Definition Item_default (n : string) : Item := mkItem n "".

#[global] Instance Item_eq_dec : EqDecision Item.
Proof. solve_decision. Defined.

(** A frozen dataclass hashes the tuple of its fields; the set only needs
    a hash that is a function of the fields, which [encode] on the pair is. *)
#[global] Instance Item_countable : Countable Item.
Proof.
  refine (inj_countable' (fun i => (name i, description i))
                         (fun p => mkItem p.1 p.2) _).
  by intros [].
Defined.

(** [hash(item)]: the generated [__hash__] is a hash of [(name, description)]. *)
Definition Item_hash (i : Item) : positive := encode (name i, description i).

(** [@dataclass(frozen=True) class User: username: str; items: FrozenSet[Item]] *)
Record User := mkUser {
  username : string;
  items : gset Item
}.

(** [User.with_item_added]: [replace(self, items=self.items.union({item}))] *)
Definition with_item_added (u : User) (item : Item) : User :=
  mkUser (username u) (items u ∪ {[ item ]}).

(** [User.with_items_added]: [replace(self, items=self.items.union(items))] *)
Definition with_items_added (u : User) (its : gset Item) : User :=
  mkUser (username u) (items u ∪ its).

(** [User.with_item_removed]: [replace(self, items=self.items.difference({item}))] *)
Definition with_item_removed (u : User) (item : Item) : User :=
  mkUser (username u) (items u ∖ {[ item ]}).

(** [User.with_items_removed]: [replace(self, items=self.items.difference(items))] *)
Definition with_items_removed (u : User) (its : gset Item) : User :=
  mkUser (username u) (items u ∖ its).

(** [OfferStatus = Enum('OfferStatus', 'PENDING ACCEPTED DECLINED')] *)
Inductive OfferStatus := PENDING | ACCEPTED | DECLINED.

#[global] Instance OfferStatus_eq_dec : EqDecision OfferStatus.
Proof. solve_decision. Defined.

(** [@dataclass(frozen=True) class Offer] *)
Record Offer := mkOffer {
  user_a : User;
  user_b : User;
  offered_items : gset Item;
  requested_items : gset Item;
  status : OfferStatus
}.

(** [issubset] on frozensets, as a decidable test. *)
Definition issubset (s t : gset Item) : bool := bool_decide (s ⊆ t).

(** [Offer.accept] *)
Definition accept (self : Offer) : Offer * User * User :=
  if bool_decide (status self ≠ PENDING) then (self, user_a self, user_b self)
  else if negb (issubset (offered_items self) (items (user_a self)))
  then (self, user_a self, user_b self)
  else if negb (issubset (requested_items self) (items (user_b self)))
  then (self, user_a self, user_b self)
  else
    let updated_user_a :=
      with_items_added (with_items_removed (user_a self) (offered_items self))
                       (requested_items self) in
    let updated_user_b :=
      with_items_added (with_items_removed (user_b self) (requested_items self))
                       (offered_items self) in
    let updated_offer :=
      mkOffer updated_user_a updated_user_b
              (offered_items self) (requested_items self) ACCEPTED in
    (updated_offer, updated_user_a, updated_user_b).

(** [Offer.decline] *)
Definition decline (self : Offer) : Offer :=
  if bool_decide (status self = PENDING)
  then mkOffer (user_a self) (user_b self)
               (offered_items self) (requested_items self) DECLINED
  else self.

(** ** The example of the module's [__main__] block *)

Definition book : Item := mkItem "Book" "A mystery novel".
Definition guitar : Item := mkItem "Guitar" "An acoustic guitar".
Definition lamp : Item := mkItem "Lamp" "A vintage lamp".
Definition pen : Item := mkItem "Pen" "A fancy fountain pen".

Definition alice : User := mkUser "alice" {[ book; pen ]}.
Definition bob : User := mkUser "bob" {[ guitar; lamp ]}.

Definition example_offer : Offer :=
  mkOffer alice bob {[ book; pen ]} {[ guitar; lamp ]} PENDING.

Example example_accept_status :
  status (accept example_offer).1.1 = ACCEPTED.
Proof. vm_compute. reflexivity. Qed.

Example example_accept_alice :
  items (accept example_offer).1.2 = {[ guitar; lamp ]}.
Proof. vm_compute. reflexivity. Qed.

(** ** Unfolding lemmas for [accept] *)

(** The result of the swap branch of [accept]. *)
Definition swap_result (o : Offer) : Offer * User * User :=
  let a' := with_items_added (with_items_removed (user_a o) (offered_items o))
                             (requested_items o) in
  let b' := with_items_added (with_items_removed (user_b o) (requested_items o))
                             (offered_items o) in
  (mkOffer a' b' (offered_items o) (requested_items o) ACCEPTED, a', b').

Lemma accept_not_pending (o : Offer) :
  status o ≠ PENDING -> accept o = (o, user_a o, user_b o).
Proof. intros H. unfold accept. by rewrite bool_decide_true. Qed.

Lemma accept_pending_owned (o : Offer) :
  status o = PENDING ->
  offered_items o ⊆ items (user_a o) ->
  requested_items o ⊆ items (user_b o) ->
  accept o = swap_result o.
Proof.
  intros Hs Ha Hb. unfold accept, issubset.
  rewrite bool_decide_false by (intros []; exact Hs).
  rewrite (bool_decide_true _ Ha), (bool_decide_true _ Hb). reflexivity.
Qed.

Lemma accept_pending_not_owned (o : Offer) :
  status o = PENDING ->
  ¬ (offered_items o ⊆ items (user_a o) ∧ requested_items o ⊆ items (user_b o)) ->
  accept o = (o, user_a o, user_b o).
Proof.
  intros Hs Hn. unfold accept, issubset.
  rewrite bool_decide_false by (intros []; exact Hs).
  destruct (bool_decide_reflect (offered_items o ⊆ items (user_a o))) as [Ha|Ha];
    [|reflexivity].
  destruct (bool_decide_reflect (requested_items o ⊆ items (user_b o))) as [Hb|Hb];
    [|reflexivity].
  exfalso. tauto.
Qed.

(** Every call of [accept] takes one of its three branches. *)
Lemma accept_cases (o : Offer) :
  (status o ≠ PENDING ∧ accept o = (o, user_a o, user_b o)) ∨
  (status o = PENDING ∧
   ¬ (offered_items o ⊆ items (user_a o) ∧ requested_items o ⊆ items (user_b o)) ∧
   accept o = (o, user_a o, user_b o)) ∨
  (status o = PENDING ∧ offered_items o ⊆ items (user_a o) ∧
   requested_items o ⊆ items (user_b o) ∧ accept o = swap_result o).
Proof.
  destruct (decide (status o = PENDING)) as [Hs|Hs].
  - destruct (decide (offered_items o ⊆ items (user_a o) ∧
                      requested_items o ⊆ items (user_b o))) as [[Ha Hb]|Hn].
    + right; right. split_and!; auto using accept_pending_owned.
    + right; left. split_and!; auto using accept_pending_not_owned.
  - left. auto using accept_not_pending.
Qed.

(** ** Claims *)

(** C1: for a PENDING offer whose parties own the items they give, [accept]
    yields an ACCEPTED offer, user A holding [(A − offered) ∪ requested] and
    user B holding [(B − requested) ∪ offered]. *)
Theorem accept_swap_correct (o : Offer) :
  status o = PENDING ->
  offered_items o ⊆ items (user_a o) ->
  requested_items o ⊆ items (user_b o) ->
  let '(o', a', b') := accept o in
  items a' = (items (user_a o) ∖ offered_items o) ∪ requested_items o ∧
  items b' = (items (user_b o) ∖ requested_items o) ∪ offered_items o ∧
  status o' = ACCEPTED.
Proof.
  intros Hs Ha Hb. rewrite accept_pending_owned by done. simpl. done.
Qed.

Lemma accept_swap_correct_witness :
  status example_offer = PENDING ∧
  offered_items example_offer ⊆ items (user_a example_offer) ∧
  requested_items example_offer ⊆ items (user_b example_offer) ∧
  (let '(o', a', b') := accept example_offer in
   items a' = (items (user_a example_offer) ∖ offered_items example_offer)
                ∪ requested_items example_offer ∧
   items b' = (items (user_b example_offer) ∖ requested_items example_offer)
                ∪ offered_items example_offer ∧
   status o' = ACCEPTED).
Proof.
  assert (H1 : status example_offer = PENDING) by reflexivity.
  assert (H2 : offered_items example_offer ⊆ items (user_a example_offer))
    by (apply (bool_decide_unpack _); vm_compute; exact I).
  assert (H3 : requested_items example_offer ⊆ items (user_b example_offer))
    by (apply (bool_decide_unpack _); vm_compute; exact I).
  split; [exact H1|]. split; [exact H2|]. split; [exact H3|].
  exact (accept_swap_correct example_offer H1 H2 H3).
Defined.

(** C2: [accept] returns either the original offer and users unchanged, or
    the complete swap: an ACCEPTED offer with both users updated. *)
Theorem accept_all_or_nothing (o : Offer) :
  accept o = (o, user_a o, user_b o) ∨
  accept o =
    (mkOffer
       (with_items_added (with_items_removed (user_a o) (offered_items o))
                         (requested_items o))
       (with_items_added (with_items_removed (user_b o) (requested_items o))
                         (offered_items o))
       (offered_items o) (requested_items o) ACCEPTED,
     with_items_added (with_items_removed (user_a o) (offered_items o))
                      (requested_items o),
     with_items_added (with_items_removed (user_b o) (requested_items o))
                      (offered_items o)).
Proof.
  destruct (accept_cases o) as [[_ H]|[[_ [_ H]]|[_ [_ [_ H]]]]]; auto.
Qed.

(** An offer whose user A does not own everything offered. *)
Definition unowned_offer : Offer :=
  mkOffer alice bob {[ book; guitar ]} {[ lamp ]} PENDING.

(** The example offer once it has been declined. *)
Definition declined_offer : Offer :=
  mkOffer alice bob {[ book; pen ]} {[ guitar; lamp ]} DECLINED.

(** C3: for a PENDING offer where user A lacks an offered item or user B a
    requested one, [accept] returns the original offer (still PENDING) and
    the original users; it is total, so no error is raised. *)
Theorem accept_ownership_failure (o : Offer) :
  status o = PENDING ->
  ¬ (offered_items o ⊆ items (user_a o)) ∨ ¬ (requested_items o ⊆ items (user_b o)) ->
  accept o = (o, user_a o, user_b o) ∧ status (accept o).1.1 = PENDING.
Proof.
  intros Hs Hn.
  assert (Hacc : accept o = (o, user_a o, user_b o)).
  { apply accept_pending_not_owned; [done|]. intros [Ha Hb]. tauto. }
  rewrite Hacc. simpl. auto.
Qed.

Lemma accept_ownership_failure_witness :
  status unowned_offer = PENDING ∧
  ¬ (offered_items unowned_offer ⊆ items (user_a unowned_offer)) ∧
  accept unowned_offer = (unowned_offer, user_a unowned_offer, user_b unowned_offer) ∧
  status (accept unowned_offer).1.1 = PENDING.
Proof.
  assert (H1 : status unowned_offer = PENDING) by reflexivity.
  assert (H2 : ¬ (offered_items unowned_offer ⊆ items (user_a unowned_offer))).
  { intros H. apply (bool_decide_eq_true_2 _) in H. vm_compute in H. discriminate. }
  split; [exact H1|]. split; [exact H2|].
  exact (accept_ownership_failure unowned_offer H1 (or_introl H2)).
Defined.

(** C4: on an offer that is not PENDING, [accept] returns
    [(offer, offer.user_a, offer.user_b)]. *)
Theorem accept_terminal_noop (o : Offer) :
  status o ≠ PENDING -> accept o = (o, user_a o, user_b o).
Proof. apply accept_not_pending. Qed.

Lemma accept_terminal_noop_witness :
  status declined_offer ≠ PENDING ∧
  accept declined_offer = (declined_offer, user_a declined_offer, user_b declined_offer).
Proof.
  assert (H : status declined_offer ≠ PENDING) by discriminate.
  split; [exact H|]. exact (accept_terminal_noop declined_offer H).
Defined.

(** C5: on a PENDING offer, [decline] returns an offer with status DECLINED
    and the same users and item sets; on any other offer it returns the offer
    unchanged. *)
Theorem decline_spec (o : Offer) :
  (status o = PENDING ->
   status (decline o) = DECLINED ∧ user_a (decline o) = user_a o ∧
   user_b (decline o) = user_b o ∧ offered_items (decline o) = offered_items o ∧
   requested_items (decline o) = requested_items o) ∧
  (status o ≠ PENDING -> decline o = o).
Proof.
  unfold decline. split; intros H.
  - rewrite bool_decide_true by done. simpl. auto.
  - by rewrite bool_decide_false.
Qed.

Lemma decline_spec_witness :
  status example_offer = PENDING ∧ status (decline example_offer) = DECLINED ∧
  status declined_offer ≠ PENDING ∧ decline declined_offer = declined_offer.
Proof.
  assert (H1 : status example_offer = PENDING) by reflexivity.
  assert (H2 : status declined_offer ≠ PENDING) by discriminate.
  split; [exact H1|]. split; [exact (proj1 (proj1 (decline_spec example_offer) H1))|].
  split; [exact H2|]. exact (proj2 (decline_spec declined_offer) H2).
Defined.

(** One step of an offer's lifecycle: [accept()] or [decline()]. *)
Inductive offer_step : Offer -> Offer -> Prop :=
  | step_accept o : offer_step o (accept o).1.1
  | step_decline o : offer_step o (decline o).

(** C6: a step either keeps the status or goes from PENDING to ACCEPTED or
    DECLINED; from ACCEPTED or DECLINED the status never changes. *)
Theorem offer_step_status (o o' : Offer) :
  offer_step o o' ->
  (status o' = status o ∨
   (status o = PENDING ∧ (status o' = ACCEPTED ∨ status o' = DECLINED))) ∧
  (status o ≠ PENDING -> status o' = status o).
Proof.
  intros Hstep. destruct Hstep as [o|o].
  - destruct (accept_cases o) as [[Hs H]|[[Hs [_ H]]|[Hs [_ [_ H]]]]];
      rewrite H; simpl; intuition congruence.
  - unfold decline. destruct (decide (status o = PENDING)) as [Hs|Hs].
    + rewrite bool_decide_true by done. simpl. intuition congruence.
    + rewrite bool_decide_false by done. auto.
Qed.

Lemma offer_step_status_witness :
  offer_step declined_offer (accept declined_offer).1.1 ∧
  status (accept declined_offer).1.1 = DECLINED.
Proof.
  assert (H : offer_step declined_offer (accept declined_offer).1.1)
    by apply step_accept.
  split; [exact H|].
  exact (proj2 (offer_step_status _ _ H) ltac:(discriminate)).
Defined.

(** An offer in which [book] is both offered and requested. *)
Definition overlap_offer : Offer :=
  mkOffer (mkUser "alice" {[ book; pen ]}) (mkUser "bob" {[ book; lamp ]})
          {[ book; pen ]} {[ book; lamp ]} PENDING.

(** C7: when an item is both offered and requested on an acceptable PENDING
    offer, it is still among user A's items after [accept]. *)
Theorem accept_overlap_stays (o : Offer) (x : Item) :
  status o = PENDING ->
  offered_items o ⊆ items (user_a o) ->
  requested_items o ⊆ items (user_b o) ->
  x ∈ offered_items o -> x ∈ requested_items o ->
  x ∈ items (accept o).1.2.
Proof.
  intros Hs Ha Hb Ho Hr. rewrite accept_pending_owned by done.
  simpl. set_solver.
Qed.

Lemma accept_overlap_stays_witness :
  book ∈ items (accept overlap_offer).1.2.
Proof.
  apply (accept_overlap_stays overlap_offer book).
  - reflexivity.
  - apply (bool_decide_unpack _); vm_compute; exact I.
  - apply (bool_decide_unpack _); vm_compute; exact I.
  - apply (bool_decide_unpack _); vm_compute; exact I.
  - apply (bool_decide_unpack _); vm_compute; exact I.
Defined.

(** C8: removing an absent item, or adding a present one, gives back an
    equal user; both operations are total functions. *)
Theorem item_add_remove_noop (u : User) (x : Item) :
  (x ∉ items u -> with_item_removed u x = u) ∧
  (x ∈ items u -> with_item_added u x = u).
Proof.
  destruct u as [n s]. unfold with_item_removed, with_item_added. simpl.
  split; intros H; f_equal; set_solver.
Qed.

Lemma item_add_remove_noop_witness :
  with_item_removed alice guitar = alice ∧ with_item_added alice book = alice.
Proof.
  split.
  - apply (proj1 (item_add_remove_noop alice guitar)).
    intros H. apply (bool_decide_eq_true_2 _) in H. vm_compute in H. discriminate.
  - apply (proj2 (item_add_remove_noop alice book)).
    apply (bool_decide_unpack _); vm_compute; exact I.
Defined.

(** C9: two items with the same name and description are equal and hash
    equal; a set holds one exactly when it holds the other; adding both to a
    user gives one set element. *)
Theorem item_value_equality (i1 i2 : Item) :
  name i1 = name i2 -> description i1 = description i2 ->
  i1 = i2 ∧ Item_hash i1 = Item_hash i2 ∧
  (∀ s : gset Item, i1 ∈ s ↔ i2 ∈ s) ∧
  (∀ u : User, with_item_added (with_item_added u i1) i2 = with_item_added u i1) ∧
  (∀ n : string,
     size (items (with_item_added (with_item_added (mkUser n ∅) i1) i2)) = 1).
Proof.
  destruct i1 as [n1 d1], i2 as [n2 d2]. cbn [name description]. intros -> ->.
  split_and!; try done.
  - intros [n s]. unfold with_item_added. simpl. f_equal. set_solver.
  - intros n. unfold with_item_added. cbn [items].
    replace (∅ ∪ {[mkItem n2 d2]} ∪ {[mkItem n2 d2]} : gset Item)
      with ({[mkItem n2 d2]} : gset Item) by set_solver.
    apply size_singleton.
Qed.

Lemma item_value_equality_witness :
  mkItem "Book" "A mystery novel" = book ∧
  Item_hash (mkItem "Book" "A mystery novel") = Item_hash book.
Proof.
  destruct (item_value_equality (mkItem "Book" "A mystery novel") book
              eq_refl eq_refl) as [H1 [H2 _]].
  split; [exact H1|exact H2].
Defined.

(** C10: on every path of [accept], the returned offer carries the returned
    users and the original item sets. *)
Theorem accept_result_consistent (o : Offer) :
  let '(o', a', b') := accept o in
  user_a o' = a' ∧ user_b o' = b' ∧
  offered_items o' = offered_items o ∧ requested_items o' = requested_items o.
Proof.
  destruct (accept_cases o) as [[_ H]|[[_ [_ H]]|[_ [_ [_ H]]]]];
    rewrite H; simpl; auto.
Qed.

(** ** Further properties of [core.py] *)

(** The offer seen from the other side: B offers what A requested. *)
Definition mirror_offer (o : Offer) : Offer :=
  mkOffer (user_b o) (user_a o) (requested_items o) (offered_items o) (status o).

(** An offer with nothing offered and nothing requested. *)
Definition empty_offer : Offer := mkOffer alice bob ∅ ∅ PENDING.


(** [accept] never renames a user: the returned users keep the usernames of
    the offer's users. *)
Theorem accept_keeps_usernames (o : Offer) :
  let '(o', a', b') := accept o in
  username a' = username (user_a o) ∧ username b' = username (user_b o).
Proof.
  destruct (accept_cases o) as [[_ H]|[[_ [_ H]]|[_ [_ [_ H]]]]];
    rewrite H; simpl; auto.
Qed.

(** A successful swap neither creates nor destroys items: the two users
    hold together exactly what they held before. *)
Theorem accept_conserves_items (o : Offer) :
  status o = PENDING ->
  offered_items o ⊆ items (user_a o) ->
  requested_items o ⊆ items (user_b o) ->
  let '(o', a', b') := accept o in
  items a' ∪ items b' = items (user_a o) ∪ items (user_b o).
Proof.
  intros Hs Ha Hb. rewrite accept_pending_owned by done.
  unfold swap_result, with_items_added, with_items_removed. cbn [items].
  apply leibniz_equiv, set_equiv. intros x.
  destruct (decide (x ∈ offered_items o)), (decide (x ∈ requested_items o)); set_solver.
Qed.

Lemma accept_conserves_items_witness :
  let '(o', a', b') := accept example_offer in
  items a' ∪ items b' = items (user_a example_offer) ∪ items (user_b example_offer).
Proof.
  apply accept_conserves_items.
  - reflexivity.
  - apply (bool_decide_unpack _); vm_compute; exact I.
  - apply (bool_decide_unpack _); vm_compute; exact I.
Defined.

(** When the two users hold disjoint item sets, a successful swap leaves
    them disjoint: every traded item has one owner afterwards. *)
Theorem accept_keeps_disjoint (o : Offer) :
  status o = PENDING ->
  offered_items o ⊆ items (user_a o) ->
  requested_items o ⊆ items (user_b o) ->
  items (user_a o) ## items (user_b o) ->
  let '(o', a', b') := accept o in items a' ## items b'.
Proof.
  intros Hs Ha Hb Hd. rewrite accept_pending_owned by done.
  unfold swap_result, with_items_added, with_items_removed. cbn [items].
  intros x Hx1 Hx2.
  destruct (decide (x ∈ offered_items o)), (decide (x ∈ requested_items o)); set_solver.
Qed.

Lemma accept_keeps_disjoint_witness :
  let '(o', a', b') := accept example_offer in items a' ## items b'.
Proof.
  apply accept_keeps_disjoint.
  - reflexivity.
  - apply (bool_decide_unpack _); vm_compute; exact I.
  - apply (bool_decide_unpack _); vm_compute; exact I.
  - apply (bool_decide_unpack _); vm_compute; exact I.
Defined.

(** Accepting the offer returned by [accept] again changes nothing. *)
Theorem accept_idempotent (o : Offer) :
  let '(o', a', b') := accept o in accept o' = (o', a', b').
Proof.
  destruct (accept_cases o) as [[_ H]|[[_ [_ H]]|[_ [_ [_ H]]]]];
    rewrite H; cbn beta iota; [exact H|exact H|].
  unfold swap_result. cbn beta iota zeta.
  rewrite accept_not_pending by (simpl; discriminate). reflexivity.
Qed.

(** Declining twice is declining once. *)
Theorem decline_idempotent (o : Offer) : decline (decline o) = decline o.
Proof. by destruct o as [a b off req []]. Qed.

(** A declined offer can no longer be accepted: [accept] after [decline]
    returns the declined offer and its users untouched. *)
Theorem accept_after_decline (o : Offer) :
  accept (decline o) = (decline o, user_a (decline o), user_b (decline o)).
Proof.
  apply accept_not_pending. by destruct o as [a b off req []].
Qed.

(** An accepted offer can no longer be declined. *)
Theorem decline_after_accept (o : Offer) :
  status o = PENDING ->
  offered_items o ⊆ items (user_a o) ->
  requested_items o ⊆ items (user_b o) ->
  decline (accept o).1.1 = (accept o).1.1.
Proof.
  intros Hs Ha Hb. rewrite accept_pending_owned by done.
  unfold decline. by rewrite bool_decide_false.
Qed.

Lemma decline_after_accept_witness :
  decline (accept example_offer).1.1 = (accept example_offer).1.1.
Proof.
  apply decline_after_accept.
  - reflexivity.
  - apply (bool_decide_unpack _); vm_compute; exact I.
  - apply (bool_decide_unpack _); vm_compute; exact I.
Defined.

(** The returned status tells the caller what happened: it is ACCEPTED
    exactly when the offer already was, or it was PENDING and both users own
    what they give. *)
Theorem accept_status_accepted_iff (o : Offer) :
  status (accept o).1.1 = ACCEPTED <->
  status o = ACCEPTED ∨
  (status o = PENDING ∧ offered_items o ⊆ items (user_a o) ∧
   requested_items o ⊆ items (user_b o)).
Proof.
  destruct (accept_cases o) as [[Hs H]|[[Hs [Hn H]]|[Hs [Ha [Hb H]]]]];
    rewrite H; simpl.
  - destruct (status o); naive_solver.
  - rewrite Hs. naive_solver.
  - naive_solver.
Qed.

(** [accept] treats both parties alike: accepting the mirrored offer gives
    the mirrored result with the two users exchanged. *)
Theorem accept_mirror (o : Offer) :
  let '(o', a', b') := accept o in
  accept (mirror_offer o) = (mirror_offer o', b', a').
Proof.
  destruct (accept_cases o) as [[Hs H]|[[Hs [Hn H]]|[Hs [Ha [Hb H]]]]];
    rewrite H; cbn beta iota.
  - by apply accept_not_pending.
  - apply accept_pending_not_owned; [done|]. simpl. tauto.
  - rewrite accept_pending_owned by done. reflexivity.
Qed.

(** Adding an item the user lacks and then removing it gives back the user. *)
Theorem with_item_added_removed (u : User) (x : Item) :
  x ∉ items u -> with_item_removed (with_item_added u x) x = u.
Proof.
  intros Hx. destruct u as [n s]. unfold with_item_removed, with_item_added.
  cbn [items username] in *. f_equal. set_solver.
Qed.

Lemma with_item_added_removed_witness :
  with_item_removed (with_item_added alice guitar) guitar = alice.
Proof.
  apply with_item_added_removed.
  intros H. apply (bool_decide_eq_true_2 _) in H. vm_compute in H. discriminate.
Defined.

(** Removing an item the user holds and then adding it back gives back the
    user. *)
Theorem with_item_removed_added (u : User) (x : Item) :
  x ∈ items u -> with_item_added (with_item_removed u x) x = u.
Proof.
  intros Hx. destruct u as [n s]. unfold with_item_removed, with_item_added.
  cbn [items username] in *. f_equal.
  apply leibniz_equiv, set_equiv. intros y.
  destruct (decide (y = x)); set_solver.
Qed.

Lemma with_item_removed_added_witness :
  with_item_added (with_item_removed alice book) book = alice.
Proof.
  apply with_item_removed_added.
  apply (bool_decide_unpack _); vm_compute; exact I.
Defined.

(** Removing a set of items the user holds and adding the same set back
    gives back the user. *)
Theorem with_items_removed_added (u : User) (s : gset Item) :
  s ⊆ items u -> with_items_added (with_items_removed u s) s = u.
Proof.
  intros Hs. destruct u as [n t]. unfold with_items_removed, with_items_added.
  cbn [items username] in *. f_equal.
  apply leibniz_equiv, set_equiv. intros y.
  destruct (decide (y ∈ s)); set_solver.
Qed.

Lemma with_items_removed_added_witness :
  with_items_added (with_items_removed alice {[ book; pen ]}) {[ book; pen ]} = alice.
Proof.
  apply with_items_removed_added.
  apply (bool_decide_unpack _); vm_compute; exact I.
Defined.


(** Adding two sets in turn is adding their union; removing two sets in turn
    is removing their union. *)
Theorem with_items_compose (u : User) (s1 s2 : gset Item) :
  with_items_added (with_items_added u s1) s2 = with_items_added u (s1 ∪ s2) ∧
  with_items_removed (with_items_removed u s1) s2 = with_items_removed u (s1 ∪ s2).
Proof.
  destruct u as [n t]. unfold with_items_added, with_items_removed.
  cbn [items username]. split; f_equal; set_solver.
Qed.

(** A PENDING offer with nothing offered and nothing requested is accepted,
    and both users come back unchanged. *)
Theorem accept_empty_offer (o : Offer) :
  status o = PENDING -> offered_items o = ∅ -> requested_items o = ∅ ->
  let '(o', a', b') := accept o in
  status o' = ACCEPTED ∧ a' = user_a o ∧ b' = user_b o.
Proof.
  intros Hs Ho Hr. rewrite accept_pending_owned by (rewrite ?Ho, ?Hr; set_solver).
  unfold swap_result, with_items_added, with_items_removed. cbn beta iota zeta.
  rewrite Ho, Hr. destruct (user_a o) as [na sa], (user_b o) as [nb sb].
  cbn [items username]. split_and!; [done| |]; f_equal; set_solver.
Qed.

Lemma accept_empty_offer_witness :
  let '(o', a', b') := accept empty_offer in
  status o' = ACCEPTED ∧ a' = user_a empty_offer ∧ b' = user_b empty_offer.
Proof. apply accept_empty_offer; reflexivity. Defined.
